(** * EventBridge Pipes from a DynamoDB stream to the default event bus

    A shallow embedding of [infrastructure/eventbridge_pipes.py] and [app.py]:
    the [UserEventsPipeline] construct, its three pipes, the shared IAM role
    and the two inline policy documents.

    Python [str] values are modelled as [string], one character per code
    point, for the code points 0 to 255 only: strings with a code point of 256
    or more are outside the model.  Python exceptions are modelled by the type
    [exn]; a call that may raise returns an [outcome].  Constructs register
    themselves in their scope, which is threaded explicitly as a [Node]. *)

From Stdlib Require Import String Ascii List Bool ZArith Lia.
Import ListNotations.
Open Scope string_scope.

(** ** Python strings, truthiness and exceptions *)

Module Py.

(** The double-quote character, as a one-character string. *)
Definition dq : string := String (ascii_of_nat 34) EmptyString.

(** [quoted s] is [s] between two double quotes. *)
Definition quoted (s : string) : string := dq ++ s ++ dq.

(** [bool(x)] for an [Optional[str]]: [None] and the empty string are falsy. *)
Definition truthy (x : option string) : bool :=
  match x with
  | None => false
  | Some EmptyString => false
  | Some (String _ _) => true
  end.

(** [x in l] for a list of strings. *)
Definition contains (l : list string) (x : string) : bool :=
  existsb (String.eqb x) l.

(** [sep.join(l)]. *)
Fixpoint join (sep : string) (l : list string) : string :=
  match l with
  | [] => EmptyString
  | [x] => x
  | x :: rest => x ++ sep ++ join sep rest
  end.

(** The exceptions this program can see: [ValueError] is raised by the
    program itself, [RuntimeError] comes from the constructs library when a
    scope refuses a child, and [TypeError] from the argument checks of the
    CDK bindings, whose text is not modelled. *)
Inductive exn : Type :=
| ValueError (msg : string)
| RuntimeError (msg : string)
| TypeError.

(** [type(e).__name__]. *)
Definition exc_class (e : exn) : string :=
  match e with
  | ValueError _ => "ValueError"
  | RuntimeError _ => "RuntimeError"
  | TypeError => "TypeError"
  end.

Inductive outcome (A : Type) : Type :=
| Returned (a : A)
| Raised (e : exn).
Arguments Returned {A} a.
Arguments Raised {A} e.

End Py.
Import Py.

(** ** [json.dumps] with its default arguments *)

Module Json.

#[local] Set Warnings "-register-all".

(** The Python values [json.dumps] is given here: [None], booleans, strings,
    lists and dicts (in insertion order). *)
Inductive value : Type :=
| JNull
| JBool (b : bool)
| JStr (s : string)
| JArr (items : list value)
| JObj (members : list (string * value)).

Definition hex_digit (n : nat) : ascii :=
  match n with
  | 0 => "0" | 1 => "1" | 2 => "2" | 3 => "3" | 4 => "4"
  | 5 => "5" | 6 => "6" | 7 => "7" | 8 => "8" | 9 => "9"
  | 10 => "a" | 11 => "b" | 12 => "c" | 13 => "d" | 14 => "e"
  | _ => "f"
  end%char.

(** ['\\u{0:04x}'.format(n)] for a code point below 65536. *)
Definition u_escape (n : nat) : string :=
  "\u" ++ String (hex_digit (n / 4096 mod 16))
            (String (hex_digit (n / 256 mod 16))
               (String (hex_digit (n / 16 mod 16))
                  (String (hex_digit (n mod 16)) EmptyString))).

(** One character under [ESCAPE_ASCII]: printable ASCII other than the
    quote and the backslash stands for itself, the rest is escaped. *)
Definition escape_char (c : ascii) : string :=
  let n := nat_of_ascii c in
  if Nat.eqb n 34 then "\" ++ dq
  else if Nat.eqb n 92 then "\\"
  else if Nat.eqb n 8 then "\b"
  else if Nat.eqb n 12 then "\f"
  else if Nat.eqb n 10 then "\n"
  else if Nat.eqb n 13 then "\r"
  else if Nat.eqb n 9 then "\t"
  else if andb (Nat.leb 32 n) (Nat.leb n 126) then String c EmptyString
  else u_escape n.

Fixpoint escape (s : string) : string :=
  match s with
  | EmptyString => EmptyString
  | String c rest => escape_char c ++ escape rest
  end.

(** [py_encode_basestring_ascii]. *)
Definition encode_string (s : string) : string := quoted (escape s).

(** [json.dumps(v)]: separators [", "] and [": "], [ensure_ascii=True]. *)
Fixpoint dumps (v : value) : string :=
  match v with
  | JNull => "null"
  | JBool true => "true"
  | JBool false => "false"
  | JStr s => encode_string s
  | JArr items => "[" ++ join ", " (map dumps items) ++ "]"
  | JObj members =>
      "{" ++ join ", "
               (map (fun kv => match kv with
                               | (k, x) => encode_string k ++ ": " ++ dumps x
                               end) members)
          ++ "}"
  end.

End Json.

(** ** The CDK constructs the program instantiates

    Only the properties the program sets or reads are kept.  Attributes that
    CloudFormation resolves at deployment are unresolved tokens at synthesis
    time; [token] stands for their string encoding. *)

Module Cdk.

(** What a construct reads of its place in the tree: its own id as its scope
    registered it, that is sanitised, and the partition, region and account
    of [Stack.of(self)]. *)
Record StackEnv : Type := {
  construct_id : string;
  partition : string;
  region : string;
  account : string
}.

(** [sanitizeId] of the constructs library: the path separator is written as
    two dashes. *)
Fixpoint sanitize_id (id : string) : string :=
  match id with
  | EmptyString => EmptyString
  | String c rest =>
      if Ascii.eqb c "/" then String "-" (String "-" (sanitize_id rest))
      else String c (sanitize_id rest)
  end.

Definition token (construct_id attr : string) : string :=
  "${Token[" ++ construct_id ++ "." ++ attr ++ "]}".

(** *** aws_dynamodb *)

Inductive AttributeType : Type := BINARY | NUMBER | STRING.

Record Attribute : Type := {
  attr_name : string;
  attr_type : AttributeType
}.

Inductive StreamViewType : Type :=
| NEW_IMAGE | OLD_IMAGE | NEW_AND_OLD_IMAGES | KEYS_ONLY.

Record Table : Type := {
  table_id : string;
  partition_key : Attribute;
  sort_key : option Attribute;
  stream : option StreamViewType;
  table_name : string;
  (** [None] unless the table was declared with a stream. *)
  table_stream_arn : option string
}.

(** *** aws_iam *)

Inductive Effect : Type := ALLOW | DENY.

Record PolicyStatement : Type := {
  actions : list string;
  effect : Effect;
  resources : list (option string)
}.

Record PolicyDocument : Type := {
  statements : list PolicyStatement
}.

Record Role : Type := {
  role_id : string;
  assumed_by : string;
  description : string;
  inline_policies : list (string * PolicyDocument);
  role_arn : string
}.

(** *** aws_pipes *)

Record PipeSourceDynamoDBStreamParametersProperty : Type := {
  starting_position : string;
  batch_size : Z
}.

Record FilterProperty : Type := {
  pattern : string
}.

Record FilterCriteriaProperty : Type := {
  filters : list FilterProperty
}.

Record PipeSourceParametersProperty : Type := {
  dynamo_db_stream_parameters : PipeSourceDynamoDBStreamParametersProperty;
  filter_criteria : FilterCriteriaProperty
}.

Record PipeTargetEventBridgeEventBusParametersProperty : Type := {
  detail_type : string;
  bus_source : string
}.

Record PipeTargetParametersProperty : Type := {
  input_template : string;
  event_bridge_event_bus_parameters :
    PipeTargetEventBridgeEventBusParametersProperty
}.

Record CfnPipe : Type := {
  pipe_id : string;
  pipe_role_arn : string;
  source : option string;
  source_parameters : PipeSourceParametersProperty;
  target : string;
  target_parameters : PipeTargetParametersProperty
}.

(** *** The construct tree below one scope *)

Inductive Resource : Type :=
| RTable (t : Table)
| RRole (r : Role)
| RPipe (p : CfnPipe).

(** The children of a scope, oldest first, each under its construct id. *)
Definition Node : Type := list (string * Resource).

Definition has_child (id : string) (n : Node) : bool :=
  existsb (fun c => String.eqb id (fst c)) n.

(** A computation inside a scope: it may add children and it may raise;
    what was added before a raise stays. *)
Definition M (A : Type) : Type := Node -> outcome A * Node.

Definition ret {A} (a : A) : M A := fun n => (Returned a, n).

Definition bind {A B} (m : M A) (k : A -> M B) : M B :=
  fun n =>
    match m n with
    | (Returned a, n') => k a n'
    | (Raised e, n') => (Raised e, n')
    end.

Definition raise {A} (e : exn) : M A := fun n => (Raised e, n).

(** A step that cannot touch the scope. *)
Definition lift {A} (o : outcome A) : M A := fun n => (o, n).

(** How the constructs library names a scope in its messages: the class of
    the host, which is [Construct] for a construct defined in Python, and the
    id of the scope in brackets unless it is empty. *)
Definition scope_name (scope : StackEnv) : string :=
  "Construct" ++ match construct_id scope with
                 | EmptyString => EmptyString
                 | String _ _ => " [" ++ construct_id scope ++ "]"
                 end.

(** [Construct.__init__(scope, id)], given the id already sanitised: an empty
    id and a second child of the same name are refused. *)
Definition add_child (scope : StackEnv) (id : string) (r : Resource) : M unit :=
  fun n =>
    match id with
    | EmptyString =>
        (Raised (RuntimeError "Only root constructs may have an empty ID"), n)
    | String _ _ =>
        if has_child id n
        then (Raised (RuntimeError
                        ("There is already a Construct with name '" ++ id
                           ++ "' in " ++ scope_name scope)),
              n)
        else (Returned tt, (n ++ [(id, r)])%list)
    end.

(** [dynamodb.Table(scope, id, partition_key=, sort_key=, stream=)]. *)
Definition new_Table (scope : StackEnv) (raw_id : string) (pk : Attribute)
           (sk : option Attribute) (sv : option StreamViewType) : M Table :=
  let id := sanitize_id raw_id in
  let t := {| table_id := id;
              partition_key := pk;
              sort_key := sk;
              stream := sv;
              table_name := token id "Ref";
              table_stream_arn :=
                match sv with
                | Some _ => Some (token id "StreamArn")
                | None => None
                end |} in
  bind (add_child scope id (RTable t)) (fun _ => ret t).

(** [iam.Role(scope, id, assumed_by=, description=, inline_policies=)]. *)
Definition new_Role (scope : StackEnv) (raw_id principal descr : string)
           (policies : list (string * PolicyDocument)) : M Role :=
  let id := sanitize_id raw_id in
  let r := {| role_id := id;
              assumed_by := principal;
              description := descr;
              inline_policies := policies;
              role_arn := token id "Arn" |} in
  bind (add_child scope id (RRole r)) (fun _ => ret r).

(** [pipes.CfnPipe(scope, id, role_arn=, source=, source_parameters=,
    target=, target_parameters=)]. *)
Definition new_CfnPipe (scope : StackEnv) (raw_id rarn : string)
           (src : option string)
           (sp : PipeSourceParametersProperty) (tgt : string)
           (tp : PipeTargetParametersProperty) : M CfnPipe :=
  let id := sanitize_id raw_id in
  let p := {| pipe_id := id;
              pipe_role_arn := rarn;
              source := src;
              source_parameters := sp;
              target := tgt;
              target_parameters := tp |} in
  bind (add_child scope id (RPipe p)) (fun _ => ret p).

Definition tables (n : Node) : list Table :=
  flat_map (fun c => match snd c with RTable t => [t] | _ => [] end) n.

Definition roles (n : Node) : list Role :=
  flat_map (fun c => match snd c with RRole r => [r] | _ => [] end) n.

Definition cfn_pipes (n : Node) : list CfnPipe :=
  flat_map (fun c => match snd c with RPipe p => [p] | _ => [] end) n.

End Cdk.
Import Cdk.

Declare Scope cdk_scope.
Notation "x <- m ;; k" := (bind m (fun x => k))
  (at level 61, m at next level, right associativity) : cdk_scope.
Notation "m ;;; k" := (bind m (fun _ => k))
  (at level 61, right associativity) : cdk_scope.
Open Scope cdk_scope.

(** ** infrastructure/eventbridge_pipes.py *)

Module UserEventsPipeline.

Definition _validate_pipe_parameters (ddb_table : Table) (event_name : string)
  : outcome unit :=
  if negb (truthy (table_stream_arn ddb_table)) then
    Raised (ValueError ("DynamoDB table '" ++ table_name ddb_table
                          ++ "' must have streams enabled"))
  else if negb (contains ["INSERT"; "MODIFY"; "REMOVE"] event_name) then
    Raised (ValueError ("event_name must be one of: INSERT, MODIFY, REMOVE. Got: '"
                          ++ event_name ++ "'"))
  else Returned tt.

(** The dict handed to [json.dumps] in [_create_source_parameters]. *)
Definition filter_dict (event_name key_prefix : string) : Json.value :=
  Json.JObj
    [ ("eventName", Json.JArr [Json.JStr event_name]);
      ("dynamodb",
        Json.JObj
          [ ("Keys",
              Json.JObj
                [ ("PK",
                    Json.JObj
                      [ ("S",
                          Json.JArr
                            [Json.JObj [("prefix", Json.JStr key_prefix)]]) ]) ]) ]) ].

Definition _create_source_parameters (event_name : string)
  : PipeSourceParametersProperty :=
  let key_prefix := "USER#" in
  let batch_size := 1%Z in
  let starting_position := "LATEST" in
  {| dynamo_db_stream_parameters :=
       {| starting_position := starting_position; batch_size := batch_size |};
     filter_criteria :=
       {| filters :=
            [ {| pattern := Json.dumps (filter_dict event_name key_prefix) |} ] |} |}.

Definition _create_target_parameters
           (operation_type input_template event_source_name : string)
  : PipeTargetParametersProperty :=
  {| input_template := input_template;
     event_bridge_event_bus_parameters :=
       {| detail_type := operation_type; bus_source := event_source_name |} |}.

Definition create_pipe (env : StackEnv)
           (operation_type event_name input_template : string)
           (ddb_table : Table) (role : Role) (event_source_name : string)
  : M CfnPipe :=
  lift (_validate_pipe_parameters ddb_table event_name) ;;;
  let source_params := _create_source_parameters event_name in
  let target_params :=
    _create_target_parameters operation_type input_template event_source_name in
  new_CfnPipe
    env
    (operation_type ++ "Pipe")
    (role_arn role)
    (table_stream_arn ddb_table)
    source_params
    ("arn:" ++ partition env ++ ":events:" ++ region env ++ ":" ++ account env
            ++ ":event-bus/default")
    target_params.

(** [iam.PolicyStatement] checks its arguments: a resource that is [None]
    is a [TypeError]. *)
Definition _create_source_policy (ddb_table : Table) : outcome PolicyDocument :=
  match table_stream_arn ddb_table with
  | None => Raised TypeError
  | Some _ =>
      Returned
        {| statements :=
             [ {| actions :=
                    [ "dynamodb:DescribeStream";
                      "dynamodb:GetRecords";
                      "dynamodb:GetShardIterator";
                      "dynamodb:ListStreams" ];
                  effect := ALLOW;
                  resources := [table_stream_arn ddb_table] |} ] |}
  end.

Definition _create_target_policy (env : StackEnv) : PolicyDocument :=
  {| statements :=
       [ {| actions := ["events:PutEvents"];
            effect := ALLOW;
            resources :=
              [ Some ("arn:" ++ partition env ++ ":events:" ++ region env ++ ":"
                             ++ account env ++ ":event-bus/default") ] |} ] |}.

Definition create_pipe_role (env : StackEnv) (ddb_table : Table) : M Role :=
  source_policy <- lift (_create_source_policy ddb_table) ;;
  new_Role
    env
    "PipeIAMRole"
    "pipes.amazonaws.com"
    "Role for EventBridge Pipes"
    [ ("SourcePolicy", source_policy);
      ("TargetPolicy", _create_target_policy env) ].

(** The two input templates written out in [__init__]. *)
Definition key_template : string :=
  "{" ++ quoted "userId" ++ ": <$.dynamodb.Keys.PK.S>}".

Definition images_template : string :=
  "{" ++ quoted "userId" ++ ": <$.dynamodb.Keys.PK.S>, "
      ++ quoted "oldImage" ++ ": <$.dynamodb.OldImage>, "
      ++ quoted "newImage" ++ ": <$.dynamodb.NewImage>}".

(** [UserEventsPipeline(scope, construct_id, event_source_name)]: the body of
    [__init__] after [super().__init__], run in the new construct's own
    scope; [env] holds the id the construct got. *)
Definition __init__ (env : StackEnv) (event_source_name : string) : M unit :=
  ddb <- new_Table env "DDBTable"
           {| attr_name := "PK"; attr_type := STRING |}
           (Some {| attr_name := "SK"; attr_type := STRING |})
           (Some NEW_AND_OLD_IMAGES) ;;
  pipe_iam_role <- create_pipe_role env ddb ;;
  create_pipe env "UserDeleted" "REMOVE" key_template
              ddb pipe_iam_role event_source_name ;;;
  create_pipe env "UserCreated" "INSERT" key_template
              ddb pipe_iam_role event_source_name ;;;
  create_pipe env "UserModified" "MODIFY" images_template
              ddb pipe_iam_role event_source_name ;;;
  ret tt.

End UserEventsPipeline.

(** ** app.py *)

(** [MyApplicationStack.__init__]: one [UserEventsPipeline] under the id
    ["UserEvents"] with the event source name ["myapp.users"], in the stack
    whose partition, region and account [env] gives; the result is the outcome
    of the constructor and the children of the new construct. *)
Definition MyApplicationStack (env : StackEnv) : outcome unit * Node :=
  UserEventsPipeline.__init__
    {| construct_id := sanitize_id "UserEvents";
       partition := partition env;
       region := region env;
       account := account env |}
    "myapp.users" [].

(** ** Input templates *)

Module Template.

(** The placeholders of an input template are the texts between a [<] and the
    next [>]; [cur] is the placeholder being read, if any. *)
Fixpoint scan (s : string) (cur : option string) : list string :=
  match s with
  | EmptyString => []
  | String c rest =>
      match cur with
      | None =>
          if Ascii.eqb c "<" then scan rest (Some EmptyString)
          else scan rest None
      | Some acc =>
          if Ascii.eqb c ">" then acc :: scan rest None
          else scan rest (Some (acc ++ String c EmptyString))
      end
  end.

Definition placeholders (template : string) : list string := scan template None.

Definition references (template path : string) : bool :=
  contains (placeholders template) path.

End Template.

(** ** Vocabulary of the properties *)

Import UserEventsPipeline.

(** The stream event names the validation accepts. *)
Definition event_names : list string := ["INSERT"; "MODIFY"; "REMOVE"].

(** The messages of the two errors of [_validate_pipe_parameters]. *)
Definition streams_message (ddb_table : Table) : string :=
  "DynamoDB table '" ++ table_name ddb_table ++ "' must have streams enabled".

Definition event_name_message (event_name : string) : string :=
  "event_name must be one of: INSERT, MODIFY, REMOVE. Got: '" ++ event_name ++ "'".

(** The ARN of the default bus of the stack. *)
Definition default_bus_arn (env : StackEnv) : string :=
  "arn:" ++ partition env ++ ":events:" ++ region env ++ ":" ++ account env
         ++ ":event-bus/default".

(** The filter patterns and the event-bus parameters of a pipe. *)
Definition patterns (p : CfnPipe) : list string :=
  map pattern (filters (filter_criteria (source_parameters p))).

Definition stream_parameters (p : CfnPipe)
  : PipeSourceDynamoDBStreamParametersProperty :=
  dynamo_db_stream_parameters (source_parameters p).

Definition template_of (p : CfnPipe) : string :=
  input_template (target_parameters p).

Definition detail_type_of (p : CfnPipe) : string :=
  detail_type (event_bridge_event_bus_parameters (target_parameters p)).

(** The text of the filter pattern for one event name, as it is written in
    the pipe. *)
Definition pattern_text (event_name : string) : string :=
  "{" ++ quoted "eventName" ++ ": [" ++ quoted event_name ++ "], "
      ++ quoted "dynamodb" ++ ": {" ++ quoted "Keys" ++ ": {" ++ quoted "PK"
      ++ ": {" ++ quoted "S" ++ ": [{" ++ quoted "prefix" ++ ": "
      ++ quoted "USER#" ++ "}]}}}}".

(** The pipe [create_pipe] hands to the scope when it gets that far. *)
Definition built_pipe (env : StackEnv)
           (operation_type event_name input_template : string)
           (ddb_table : Table) (role : Role) (event_source_name : string)
  : CfnPipe :=
  {| pipe_id := sanitize_id (operation_type ++ "Pipe");
     pipe_role_arn := role_arn role;
     source := table_stream_arn ddb_table;
     source_parameters := _create_source_parameters event_name;
     target := default_bus_arn env;
     target_parameters :=
       _create_target_parameters operation_type input_template
                                 event_source_name |}.

(** Characters that [json.dumps] leaves as they are. *)
Definition plain_char (c : ascii) : bool :=
  let n := nat_of_ascii c in
  ((32 <=? n) && (n <=? 126) && negb (n =? 34) && negb (n =? 92))%nat.

Fixpoint plain (s : string) : bool :=
  match s with
  | EmptyString => true
  | String c rest => plain_char c && plain rest
  end.

(** The three placeholders the templates use. *)
Definition key_placeholder : string := "$.dynamodb.Keys.PK.S".
Definition old_image_placeholder : string := "$.dynamodb.OldImage".
Definition new_image_placeholder : string := "$.dynamodb.NewImage".

(** Sample inputs. *)
Definition sample_env : StackEnv :=
  {| construct_id := "UserEvents";
     partition := "aws";
     region := "eu-west-1";
     account := "111122223333" |}.

Definition sample_table (sv : option StreamViewType) : Table :=
  {| table_id := "Orders";
     partition_key := {| attr_name := "PK"; attr_type := STRING |};
     sort_key := None;
     stream := sv;
     table_name := token "Orders" "Ref";
     table_stream_arn :=
       match sv with
       | Some _ => Some (token "Orders" "StreamArn")
       | None => None
       end |}.

Definition sample_role : Role :=
  {| role_id := "PipeIAMRole";
     assumed_by := "pipes.amazonaws.com";
     description := "Role for EventBridge Pipes";
     inline_policies := [];
     role_arn := token "PipeIAMRole" "Arn" |}.

(** What [__init__] leaves in the scope: the table, the role and the three
    pipes, in the order of their construction. *)
Definition pipeline_table : Table :=
  {| table_id := "DDBTable";
     partition_key := {| attr_name := "PK"; attr_type := STRING |};
     sort_key := Some {| attr_name := "SK"; attr_type := STRING |};
     stream := Some NEW_AND_OLD_IMAGES;
     table_name := token "DDBTable" "Ref";
     table_stream_arn := Some (token "DDBTable" "StreamArn") |}.

Definition pipeline_role (env : StackEnv) : Role :=
  {| role_id := "PipeIAMRole";
     assumed_by := "pipes.amazonaws.com";
     description := "Role for EventBridge Pipes";
     inline_policies :=
       [ ("SourcePolicy",
           {| statements :=
                [ {| actions :=
                       [ "dynamodb:DescribeStream";
                         "dynamodb:GetRecords";
                         "dynamodb:GetShardIterator";
                         "dynamodb:ListStreams" ];
                     effect := ALLOW;
                     resources := [table_stream_arn pipeline_table] |} ] |});
         ("TargetPolicy", _create_target_policy env) ];
     role_arn := token "PipeIAMRole" "Arn" |}.

Definition pipeline_pipe (env : StackEnv)
           (operation_type event_name tmpl src : string) : CfnPipe :=
  built_pipe env operation_type event_name tmpl pipeline_table
             (pipeline_role env) src.

Definition pipeline_children (env : StackEnv) (src : string) : Node :=
  [ ("DDBTable", RTable pipeline_table);
    ("PipeIAMRole", RRole (pipeline_role env));
    ("UserDeletedPipe",
      RPipe (pipeline_pipe env "UserDeleted" "REMOVE" key_template src));
    ("UserCreatedPipe",
      RPipe (pipeline_pipe env "UserCreated" "INSERT" key_template src));
    ("UserModifiedPipe",
      RPipe (pipeline_pipe env "UserModified" "MODIFY" images_template src)) ].

(** The scope after the constructor has run in an empty scope. *)
Definition built (env : StackEnv) (src : string) : Node :=
  snd (__init__ env src []).

(** The construct ids of a scope, oldest first. *)
Definition ids (n : Node) : list string := map fst n.

(** The event source a pipe publishes under. *)
Definition source_name_of (p : CfnPipe) : string :=
  bus_source (event_bridge_event_bus_parameters (target_parameters p)).

(** The message of the constructs library for an id already taken in the
    scope of the construct. *)
Definition duplicate_message (env : StackEnv) (id : string) : string :=
  "There is already a Construct with name '" ++ id ++ "' in "
    ++ scope_name env.

(** The id under which [create_pipe] registers the pipe of an operation
    type. *)
Definition pipe_id_of (operation_type : string) : string :=
  sanitize_id (operation_type ++ "Pipe").

(** Ids the constructs library registers as they are written. *)
Fixpoint no_slash (s : string) : bool :=
  match s with
  | EmptyString => true
  | String c rest => negb (Ascii.eqb c "/") && no_slash rest
  end.

(** Printable ASCII: the code points 32 to 126. *)
Definition printable_char (c : ascii) : bool :=
  let n := nat_of_ascii c in ((32 <=? n) && (n <=? 126))%nat.

Fixpoint printable (s : string) : bool :=
  match s with
  | EmptyString => true
  | String c rest => printable_char c && printable rest
  end.

(** Reading back what [Json.escape_char] writes: the value of a lower-case
    hexadecimal digit, and the first character of the body of a JSON string
    with what follows it.  A bare quote ends the body, so it reads as
    nothing. *)
Definition hex_value (c : ascii) : option nat :=
  let n := nat_of_ascii c in
  if ((48 <=? n) && (n <=? 57))%nat then Some (n - 48)
  else if ((97 <=? n) && (n <=? 102))%nat then Some (n - 87)
  else None.

Definition unescape_head (s : string) : option (ascii * string) :=
  match s with
  | EmptyString => None
  | String c rest =>
      let n := nat_of_ascii c in
      if Nat.eqb n 34 then None
      else if Nat.eqb n 92 then
        match rest with
        | EmptyString => None
        | String d rest' =>
            let m := nat_of_ascii d in
            if Nat.eqb m 34 then Some (d, rest')
            else if Nat.eqb m 92 then Some (d, rest')
            else if Nat.eqb m 98 then Some (ascii_of_nat 8, rest')
            else if Nat.eqb m 102 then Some (ascii_of_nat 12, rest')
            else if Nat.eqb m 110 then Some (ascii_of_nat 10, rest')
            else if Nat.eqb m 114 then Some (ascii_of_nat 13, rest')
            else if Nat.eqb m 116 then Some (ascii_of_nat 9, rest')
            else if Nat.eqb m 117 then
              match rest' with
              | String z1 (String z2 (String h (String l r))) =>
                  if (Nat.eqb (nat_of_ascii z1) 48
                      && Nat.eqb (nat_of_ascii z2) 48)%bool
                  then match hex_value h, hex_value l with
                       | Some a, Some b => Some (ascii_of_nat (16 * a + b), r)
                       | _, _ => None
                       end
                  else None
              | _ => None
              end
            else None
        end
      else Some (c, rest)
  end.

(** ** Basic facts *)

Lemma contains_In (l : list string) (x : string) :
  contains l x = true <-> In x l.
Proof.
  unfold contains. rewrite existsb_exists. split.
  - intros [y [Hy Heq]]. apply String.eqb_eq in Heq. now subst.
  - intros H. exists x. split; [assumption | apply String.eqb_refl].
Qed.

Lemma contains_not_In (l : list string) (x : string) :
  contains l x = false <-> ~ In x l.
Proof.
  rewrite <- contains_In. destruct (contains l x); split; intro H;
    try reflexivity; try discriminate; try (intro; discriminate).
  exfalso. now apply H.
Qed.

Lemma truthy_Some_nonempty (x : option string) :
  truthy x = true <-> exists c s, x = Some (String c s).
Proof.
  split.
  - destruct x as [[|c s]|]; simpl; try discriminate. intros _. now exists c, s.
  - intros [c [s ->]]. reflexivity.
Qed.

Lemma append_assoc (a b c : string) : (a ++ b) ++ c = a ++ b ++ c.
Proof.
  induction a as [| x a IH]; simpl; [reflexivity | now rewrite IH].
Qed.

Lemma escape_char_plain (c : ascii) :
  plain_char c = true -> Json.escape_char c = String c EmptyString.
Proof.
  unfold plain_char, Json.escape_char.
  set (n := nat_of_ascii c).
  rewrite !andb_true_iff, !negb_true_iff.
  intros [[[Hlo Hhi] Hq] Hb].
  apply Nat.leb_le in Hlo. rewrite Hq, Hb.
  repeat match goal with
         | |- context [Nat.eqb n ?k] =>
             destruct (Nat.eqb_spec n k) as [E | _]; [exfalso; lia |]
         end.
  apply Nat.leb_le in Hlo. now rewrite Hlo, Hhi.
Qed.

Lemma escape_plain (s : string) : plain s = true -> Json.escape s = s.
Proof.
  induction s as [| c rest IH]; simpl; [reflexivity |].
  rewrite andb_true_iff. intros [Hc Hrest].
  now rewrite (escape_char_plain c Hc), (IH Hrest).
Qed.

Lemma encode_string_plain (s : string) :
  plain s = true -> Json.encode_string s = quoted s.
Proof.
  intros H. unfold Json.encode_string. now rewrite escape_plain.
Qed.

Lemma event_names_plain (x : string) : In x event_names -> plain x = true.
Proof.
  intros [<- | [<- | [<- | []]]]; reflexivity.
Qed.

(** The serialised filter of a plain event name is the expected text. *)
Lemma dumps_filter_dict (event_name : string) :
  plain event_name = true ->
  Json.dumps (filter_dict event_name "USER#") = pattern_text event_name.
Proof.
  intros H. unfold filter_dict, pattern_text. cbn [Json.dumps map join].
  rewrite (encode_string_plain event_name H).
  generalize (quoted event_name). intros q.
  rewrite !append_assoc. reflexivity.
Qed.

(** ** The validation *)

Lemma validate_passes (ddb_table : Table) (event_name : string) :
  truthy (table_stream_arn ddb_table) = true ->
  In event_name event_names ->
  _validate_pipe_parameters ddb_table event_name = Returned tt.
Proof.
  intros Hs Hin. unfold _validate_pipe_parameters. rewrite Hs. cbn [negb].
  apply contains_In in Hin. unfold event_names in Hin. now rewrite Hin.
Qed.

Lemma validate_no_stream (ddb_table : Table) (event_name : string) :
  truthy (table_stream_arn ddb_table) = false ->
  _validate_pipe_parameters ddb_table event_name =
    Raised (ValueError (streams_message ddb_table)).
Proof.
  intros Hs. unfold _validate_pipe_parameters. now rewrite Hs.
Qed.

Lemma validate_bad_event_name (ddb_table : Table) (event_name : string) :
  truthy (table_stream_arn ddb_table) = true ->
  ~ In event_name event_names ->
  _validate_pipe_parameters ddb_table event_name =
    Raised (ValueError (event_name_message event_name)).
Proof.
  intros Hs Hout. unfold _validate_pipe_parameters. rewrite Hs. cbn [negb].
  apply contains_not_In in Hout. unfold event_names in Hout. now rewrite Hout.
Qed.

(** Whatever the validation raises is a [ValueError]. *)
Lemma validate_raises_ValueError (ddb_table : Table) (event_name : string) (e : exn) :
  _validate_pipe_parameters ddb_table event_name = Raised e ->
  exists msg, e = ValueError msg.
Proof.
  unfold _validate_pipe_parameters.
  destruct (negb (truthy (table_stream_arn ddb_table))).
  - intros [= <-]. eauto.
  - destruct (negb (contains _ event_name)).
    + intros [= <-]. eauto.
    + discriminate.
Qed.

Lemma messages_differ (ddb_table : Table) (event_name : string) :
  streams_message ddb_table <> event_name_message event_name.
Proof.
  unfold streams_message, event_name_message. simpl. discriminate.
Qed.

(** ** [create_pipe] *)

(** A refused validation leaves the scope as it was. *)
Lemma create_pipe_raises (env : StackEnv) (operation_type event_name tmpl : string)
      (ddb_table : Table) (role : Role) (src : string) (n : Node) (e : exn) :
  _validate_pipe_parameters ddb_table event_name = Raised e ->
  create_pipe env operation_type event_name tmpl ddb_table role src n
  = (Raised e, n).
Proof.
  intros H. unfold create_pipe, bind, lift. now rewrite H.
Qed.

Lemma bind_returned {A B : Type} (m : M A) (k : A -> M B) (n n' : Node) (a : A) :
  m n = (Returned a, n') -> bind m k n = k a n'.
Proof.
  intros H. unfold bind. now rewrite H.
Qed.

Lemma bind_raised {A B : Type} (m : M A) (k : A -> M B) (n n' : Node) (e : exn) :
  m n = (Raised e, n') -> bind m k n = (Raised e, n').
Proof.
  intros H. unfold bind. now rewrite H.
Qed.

Lemma sanitize_id_app (a b : string) :
  sanitize_id (a ++ b) = sanitize_id a ++ sanitize_id b.
Proof.
  induction a as [| c a IH]; simpl; [reflexivity |].
  destruct (Ascii.eqb c "/"); simpl; now rewrite IH.
Qed.

Lemma sanitize_id_no_slash (s : string) : no_slash s = true -> sanitize_id s = s.
Proof.
  induction s as [| c s IH]; simpl; [reflexivity |].
  destruct (Ascii.eqb c "/"); simpl; [discriminate |].
  intros H. now rewrite IH.
Qed.

(** The id of a pipe is the sanitised operation type followed by Pipe, and
    so never empty. *)
Lemma pipe_id_of_suffix (operation_type : string) :
  pipe_id_of operation_type = sanitize_id operation_type ++ "Pipe".
Proof.
  unfold pipe_id_of. now rewrite sanitize_id_app.
Qed.

Lemma pipe_id_of_nonempty (operation_type : string) :
  exists c s, pipe_id_of operation_type = String c s.
Proof.
  rewrite pipe_id_of_suffix.
  destruct (sanitize_id operation_type) as [| c s]; simpl; eauto.
Qed.

Lemma add_child_new (scope : StackEnv) (id : string) (r : Resource) (n : Node) :
  id <> EmptyString ->
  has_child id n = false ->
  add_child scope id r n = (Returned tt, (n ++ [(id, r)])%list).
Proof.
  intros Hne H. unfold add_child. destruct id; [congruence |]. now rewrite H.
Qed.

Lemma add_child_taken (scope : StackEnv) (id : string) (r : Resource) (n : Node) :
  id <> EmptyString ->
  has_child id n = true ->
  add_child scope id r n
  = (Raised (RuntimeError (duplicate_message scope id)), n).
Proof.
  intros Hne H. unfold add_child. destruct id; [congruence |]. now rewrite H.
Qed.

Lemma pipe_id_of_not_empty (operation_type : string) :
  pipe_id_of operation_type <> EmptyString.
Proof.
  destruct (pipe_id_of_nonempty operation_type) as [c [s' ->]]. discriminate.
Qed.

(** After a passed validation the pipe is built and registered, provided its
    id is new in the scope. *)
Lemma create_pipe_returns (env : StackEnv) (operation_type event_name tmpl : string)
      (ddb_table : Table) (role : Role) (src : string) (n : Node) :
  _validate_pipe_parameters ddb_table event_name = Returned tt ->
  has_child (pipe_id_of operation_type) n = false ->
  let p := built_pipe env operation_type event_name tmpl ddb_table role src in
  create_pipe env operation_type event_name tmpl ddb_table role src n
  = (Returned p, (n ++ [(pipe_id_of operation_type, RPipe p)])%list).
Proof.
  intros Hv Hfresh p.
  unfold create_pipe, bind at 1, lift. rewrite Hv.
  unfold new_CfnPipe. fold (pipe_id_of operation_type).
  erewrite bind_returned
    by (apply add_child_new; [apply pipe_id_of_not_empty | exact Hfresh]).
  reflexivity.
Qed.

(** C1: for each of INSERT, MODIFY and REMOVE, a pipe built on a table with a
    stream, in a scope where the sanitised id of the pipe is not yet taken, has
    exactly one filter, whose pattern is the serialisation of the
    object with [eventName] the one-element array of that event name and the
    key prefix [USER#], that is the text
    [{"eventName": [OP], "dynamodb": {"Keys": {"PK": {"S": [{"prefix": "USER#"}]}}}}]. *)
Theorem filter_pattern_exact
        (env : StackEnv) (operation_type event_name tmpl : string)
        (ddb_table : Table) (role : Role) (src : string) (n : Node) :
  In event_name event_names ->
  truthy (table_stream_arn ddb_table) = true ->
  has_child (sanitize_id (operation_type ++ "Pipe")) n = false ->
  exists p n',
    create_pipe env operation_type event_name tmpl ddb_table role src n
    = (Returned p, n')
    /\ cfn_pipes n' = (cfn_pipes n ++ [p])%list
    /\ patterns p = [pattern_text event_name]
    /\ pattern_text event_name
       = Json.dumps
           (Json.JObj
              [ ("eventName", Json.JArr [Json.JStr event_name]);
                ("dynamodb",
                  Json.JObj
                    [ ("Keys",
                        Json.JObj
                          [ ("PK",
                              Json.JObj
                                [ ("S",
                                    Json.JArr
                                      [Json.JObj
                                         [("prefix", Json.JStr "USER#")]]) ]) ]) ]) ]).
Proof.
  intros Hin Hs Hfresh.
  pose proof (validate_passes ddb_table event_name Hs Hin) as Hv.
  pose proof (dumps_filter_dict event_name (event_names_plain _ Hin)) as Hd.
  eexists. eexists. split; [| split; [| split]].
  - apply create_pipe_returns; [exact Hv | exact Hfresh].
  - unfold cfn_pipes. rewrite flat_map_app. simpl. reflexivity.
  - rewrite <- Hd. reflexivity.
  - symmetry. exact Hd.
Qed.

Lemma filter_pattern_exact_witness :
  In "INSERT" event_names
  /\ truthy (table_stream_arn (sample_table (Some NEW_AND_OLD_IMAGES))) = true
  /\ has_child (sanitize_id ("UserCreated" ++ "Pipe")) [] = false
  /\ exists p n',
      create_pipe sample_env "UserCreated" "INSERT" key_template
                  (sample_table (Some NEW_AND_OLD_IMAGES)) sample_role
                  "myapp.users" []
      = (Returned p, n')
      /\ cfn_pipes n' = (cfn_pipes [] ++ [p])%list
      /\ patterns p = [pattern_text "INSERT"]
      /\ pattern_text "INSERT"
         = Json.dumps
             (Json.JObj
                [ ("eventName", Json.JArr [Json.JStr "INSERT"]);
                  ("dynamodb",
                    Json.JObj
                      [ ("Keys",
                          Json.JObj
                            [ ("PK",
                                Json.JObj
                                  [ ("S",
                                      Json.JArr
                                        [Json.JObj
                                           [("prefix", Json.JStr "USER#")]]) ]) ]) ]) ]).
Proof.
  assert (H1 : In "INSERT" event_names) by (simpl; auto).
  assert (H2 : truthy (table_stream_arn (sample_table (Some NEW_AND_OLD_IMAGES)))
               = true) by reflexivity.
  assert (H3 : has_child (sanitize_id ("UserCreated" ++ "Pipe")) [] = false)
    by reflexivity.
  split; [exact H1 | split; [exact H2 | split; [exact H3 |]]].
  exact (filter_pattern_exact sample_env "UserCreated" "INSERT" key_template
           (sample_table (Some NEW_AND_OLD_IMAGES)) sample_role "myapp.users" []
           H1 H2 H3).
Defined.

(** C2, as stated, fails: an event name outside the three is refused with a
    [ValueError]; no error of the class [InvalidOperationTypeError] exists. *)
Lemma invalid_event_name_class_counterexample :
  ~ (forall (env : StackEnv) (operation_type event_name tmpl : string)
            (ddb_table : Table) (role : Role) (src : string) (n : Node),
        ~ In event_name event_names ->
        exists e n',
          create_pipe env operation_type event_name tmpl ddb_table role src n
          = (Raised e, n')
          /\ exc_class e = "InvalidOperationTypeError").
Proof.
  intros H.
  destruct (H sample_env "UserUpdated" "UPDATE" key_template
              (sample_table (Some NEW_AND_OLD_IMAGES)) sample_role
              "myapp.users" [])
    as [e [n' [Hrun Hclass]]].
  - simpl. intros [E | [E | [E | []]]]; discriminate E.
  - rewrite (create_pipe_raises _ _ _ _ _ _ _ _
               (ValueError (event_name_message "UPDATE"))) in Hrun
      by reflexivity.
    injection Hrun as <- _. discriminate Hclass.
Qed.

(** C2, amended: an event name outside INSERT, MODIFY, REMOVE makes
    [create_pipe] raise a [ValueError] and leave the scope untouched; on a
    table with a stream the message is the one naming the event name, and on a
    table without one it is the one naming the table, the stream being checked
    first.  An event name inside the three passes the event-name check: on a
    table with a stream the validation returns, and on a table without one it
    raises the error naming the table. *)
Theorem invalid_event_name_ValueError
        (env : StackEnv) (operation_type bad good tmpl : string)
        (ddb_table : Table) (role : Role) (src : string) (n : Node) :
  ~ In bad event_names ->
  In good event_names ->
  (exists msg,
      create_pipe env operation_type bad tmpl ddb_table role src n
      = (Raised (ValueError msg), n)
      /\ exc_class (ValueError msg) = "ValueError"
      /\ (truthy (table_stream_arn ddb_table) = true ->
          msg = "event_name must be one of: INSERT, MODIFY, REMOVE. Got: '"
                  ++ bad ++ "'")
      /\ (truthy (table_stream_arn ddb_table) = false ->
          msg = "DynamoDB table '" ++ table_name ddb_table
                  ++ "' must have streams enabled"))
  /\ (truthy (table_stream_arn ddb_table) = true ->
      _validate_pipe_parameters ddb_table good = Returned tt)
  /\ (truthy (table_stream_arn ddb_table) = false ->
      _validate_pipe_parameters ddb_table good
      = Raised (ValueError (streams_message ddb_table)))
  /\ _validate_pipe_parameters ddb_table good
     <> Raised (ValueError (event_name_message good)).
Proof.
  intros Hbad Hgood. split; [| split; [| split]].
  - destruct (truthy (table_stream_arn ddb_table)) eqn:Hs.
    + exists (event_name_message bad). split; [| split; [| split]].
      * apply create_pipe_raises. now apply validate_bad_event_name.
      * reflexivity.
      * reflexivity.
      * discriminate.
    + exists (streams_message ddb_table). split; [| split; [| split]].
      * apply create_pipe_raises. now apply validate_no_stream.
      * reflexivity.
      * discriminate.
      * reflexivity.
  - intros Hs. now apply validate_passes.
  - intros Hs. now apply validate_no_stream.
  - destruct (truthy (table_stream_arn ddb_table)) eqn:Hs.
    + rewrite (validate_passes _ _ Hs Hgood). discriminate.
    + rewrite (validate_no_stream _ _ Hs). intros E.
      apply (messages_differ ddb_table good). congruence.
Qed.

Lemma invalid_event_name_ValueError_witness :
  ~ In "UPDATE" event_names
  /\ In "MODIFY" event_names
  /\ create_pipe sample_env "UserUpdated" "UPDATE" key_template
                 (sample_table (Some NEW_AND_OLD_IMAGES)) sample_role
                 "myapp.users" []
     = (Raised (ValueError
                  "event_name must be one of: INSERT, MODIFY, REMOVE. Got: 'UPDATE'"),
        [])
  /\ create_pipe sample_env "UserUpdated" "UPDATE" key_template
                 (sample_table None) sample_role "myapp.users" []
     = (Raised (ValueError
                  ("DynamoDB table '" ++ table_name (sample_table None)
                     ++ "' must have streams enabled")),
        [])
  /\ _validate_pipe_parameters (sample_table (Some NEW_AND_OLD_IMAGES)) "MODIFY"
     = Returned tt.
Proof.
  assert (H1 : ~ In "UPDATE" event_names)
    by (simpl; intros [E | [E | [E | []]]]; discriminate E).
  assert (H2 : In "MODIFY" event_names) by (simpl; auto).
  destruct (invalid_event_name_ValueError sample_env "UserUpdated" "UPDATE"
              "MODIFY" key_template (sample_table (Some NEW_AND_OLD_IMAGES))
              sample_role "myapp.users" [] H1 H2)
    as [[msg [Hrun [_ [Hmsg _]]]] [Hgood _]].
  destruct (invalid_event_name_ValueError sample_env "UserUpdated" "UPDATE"
              "MODIFY" key_template (sample_table None)
              sample_role "myapp.users" [] H1 H2)
    as [[msg' [Hrun' [_ [_ Hmsg']]]] _].
  split; [exact H1 | split; [exact H2 | split; [| split]]].
  - rewrite Hrun, (Hmsg eq_refl). reflexivity.
  - rewrite Hrun', (Hmsg' eq_refl). reflexivity.
  - apply Hgood. reflexivity.
Defined.

(** C3, as stated, fails: a table without a stream is refused with a
    [ValueError]; no error of the class [ConfigurationError] exists. *)
Lemma missing_stream_class_counterexample :
  ~ (forall (env : StackEnv) (operation_type event_name tmpl : string)
            (ddb_table : Table) (role : Role) (src : string) (n : Node),
        table_stream_arn ddb_table = None ->
        exists e n',
          create_pipe env operation_type event_name tmpl ddb_table role src n
          = (Raised e, n')
          /\ exc_class e = "ConfigurationError").
Proof.
  intros H.
  destruct (H sample_env "UserCreated" "INSERT" key_template
              (sample_table None) sample_role "myapp.users" [] eq_refl)
    as [e [n' [Hrun Hclass]]].
  rewrite (create_pipe_raises _ _ _ _ _ _ _ _
             (ValueError (streams_message (sample_table None)))) in Hrun
    by reflexivity.
  injection Hrun as <- _. discriminate Hclass.
Qed.

(** C3, amended: on a table whose stream ARN is missing ([None] or empty)
    [create_pipe] raises the [ValueError] that names the table, and the scope
    is as before: no pipe was constructed.  On a table with a stream the
    validation never raises that error, and returns for an accepted event
    name. *)
Theorem missing_stream_ValueError
        (env : StackEnv) (operation_type event_name tmpl : string)
        (without with_stream : Table) (role : Role) (src : string) (n : Node) :
  truthy (table_stream_arn without) = false ->
  truthy (table_stream_arn with_stream) = true ->
  create_pipe env operation_type event_name tmpl without role src n
  = (Raised (ValueError ("DynamoDB table '" ++ table_name without
                            ++ "' must have streams enabled")),
     n)
  /\ exc_class (ValueError (streams_message without)) = "ValueError"
  /\ _validate_pipe_parameters with_stream event_name
     <> Raised (ValueError (streams_message with_stream))
  /\ (_validate_pipe_parameters with_stream event_name = Returned tt
      \/ _validate_pipe_parameters with_stream event_name
         = Raised (ValueError (event_name_message event_name))).
Proof.
  intros Hno Hyes.
  assert (Hcases : _validate_pipe_parameters with_stream event_name = Returned tt
                   \/ _validate_pipe_parameters with_stream event_name
                      = Raised (ValueError (event_name_message event_name))).
  { destruct (contains event_names event_name) eqn:Hc.
    - left. apply validate_passes; [assumption | now apply contains_In].
    - right. apply validate_bad_event_name;
        [assumption | now apply contains_not_In]. }
  split; [| split; [| split]].
  - apply create_pipe_raises. now apply validate_no_stream.
  - reflexivity.
  - destruct Hcases as [-> | ->].
    + discriminate.
    + intros E. apply (messages_differ with_stream event_name). congruence.
  - exact Hcases.
Qed.

Lemma missing_stream_ValueError_witness :
  truthy (table_stream_arn (sample_table None)) = false
  /\ truthy (table_stream_arn (sample_table (Some KEYS_ONLY))) = true
  /\ create_pipe sample_env "UserCreated" "INSERT" key_template
                 (sample_table None) sample_role "myapp.users" []
     = (Raised (ValueError
                  "DynamoDB table '${Token[Orders.Ref]}' must have streams enabled"),
        []).
Proof.
  assert (H1 : truthy (table_stream_arn (sample_table None)) = false)
    by reflexivity.
  assert (H2 : truthy (table_stream_arn (sample_table (Some KEYS_ONLY))) = true)
    by reflexivity.
  split; [exact H1 | split; [exact H2 |]].
  exact (proj1 (missing_stream_ValueError sample_env "UserCreated" "INSERT"
                  key_template (sample_table None)
                  (sample_table (Some KEYS_ONLY)) sample_role "myapp.users" []
                  H1 H2)).
Defined.

(** C4, as stated, fails: the error of a missing stream and the error of a
    refused event name are of one and the same class. *)
Lemma error_kinds_counterexample :
  ~ (forall (t1 t2 : Table) (ev1 ev2 : string) (e1 e2 : exn),
        truthy (table_stream_arn t1) = false ->
        truthy (table_stream_arn t2) = true ->
        ~ In ev2 event_names ->
        _validate_pipe_parameters t1 ev1 = Raised e1 ->
        _validate_pipe_parameters t2 ev2 = Raised e2 ->
        exc_class e1 <> exc_class e2).
Proof.
  intros H.
  apply (H (sample_table None) (sample_table (Some NEW_AND_OLD_IMAGES))
           "INSERT" "UPDATE"
           (ValueError (streams_message (sample_table None)))
           (ValueError (event_name_message "UPDATE")));
    try reflexivity.
  simpl. intros [E | [E | [E | []]]]; discriminate E.
Qed.

(** C4, amended: the validation has three outcomes.  It returns, on a table
    with a stream and an accepted event name; or it raises a [ValueError]
    naming the table, when the stream ARN is missing; or it raises a
    [ValueError] naming the event name, when the table has a stream and the
    event name is not accepted.  Both errors are of the class [ValueError];
    their messages are never equal. *)
Theorem validation_errors (ddb_table : Table) (event_name : string) :
  ((_validate_pipe_parameters ddb_table event_name = Returned tt
    /\ truthy (table_stream_arn ddb_table) = true
    /\ In event_name event_names)
   \/ (_validate_pipe_parameters ddb_table event_name
       = Raised (ValueError (streams_message ddb_table))
       /\ truthy (table_stream_arn ddb_table) = false)
   \/ (_validate_pipe_parameters ddb_table event_name
       = Raised (ValueError (event_name_message event_name))
       /\ truthy (table_stream_arn ddb_table) = true
       /\ ~ In event_name event_names))
  /\ exc_class (ValueError (streams_message ddb_table))
     = exc_class (ValueError (event_name_message event_name))
  /\ streams_message ddb_table <> event_name_message event_name.
Proof.
  split; [| split].
  - destruct (truthy (table_stream_arn ddb_table)) eqn:Hs.
    + destruct (contains event_names event_name) eqn:Hc.
      * left. apply contains_In in Hc. repeat split; try assumption.
        now apply validate_passes.
      * right. right. apply contains_not_In in Hc.
        repeat split; try assumption.
        now apply validate_bad_event_name.
    + right. left. split; [now apply validate_no_stream | reflexivity].
  - reflexivity.
  - apply messages_differ.
Qed.

(** ** The constructor *)

(** A table declared with a stream view has a stream ARN, and only then. *)
Lemma new_Table_stream (scope : StackEnv) (id : string) (pk : Attribute)
      (sk : option Attribute) (sv : option StreamViewType) (n n' : Node)
      (t : Table) :
  new_Table scope id pk sk sv n = (Returned t, n') ->
  stream t = sv
  /\ truthy (table_stream_arn t) = match sv with Some _ => true | None => false end.
Proof.
  unfold new_Table, bind, add_child, ret.
  destruct (sanitize_id id) as [| c sid]; [discriminate |].
  destruct (has_child (String c sid) n); [discriminate |].
  intros [= <- _]. split; [reflexivity |]. now destruct sv.
Qed.

Lemma new_Table_returns (scope : StackEnv) (id : string) (pk : Attribute)
      (sk : option Attribute) (sv : option StreamViewType) (n : Node) :
  sanitize_id id <> EmptyString ->
  has_child (sanitize_id id) n = false ->
  exists t,
    new_Table scope id pk sk sv n
    = (Returned t, (n ++ [(sanitize_id id, RTable t)])%list).
Proof.
  intros Hne H. unfold new_Table. eexists.
  erewrite bind_returned by (apply add_child_new; [exact Hne | exact H]).
  reflexivity.
Qed.

(** On a table with a stream ARN the role is built and registered, provided
    its id is new in the scope. *)
Lemma create_pipe_role_returns (env : StackEnv) (ddb_table : Table) (n : Node)
      (arn : string) :
  table_stream_arn ddb_table = Some arn ->
  has_child "PipeIAMRole" n = false ->
  exists r,
    create_pipe_role env ddb_table n
    = (Returned r, (n ++ [("PipeIAMRole", RRole r)])%list)
    /\ _create_source_policy ddb_table
       = Returned (snd (hd ("SourcePolicy", {| statements := [] |})
                           (inline_policies r)))
    /\ map fst (inline_policies r) = ["SourcePolicy"; "TargetPolicy"].
Proof.
  intros Harn H. unfold create_pipe_role, _create_source_policy, new_Role.
  rewrite Harn. unfold bind at 1, lift. eexists. split; [| split].
  - erewrite bind_returned
      by (apply add_child_new; [discriminate | exact H]).
    reflexivity.
  - reflexivity.
  - reflexivity.
Qed.

(** On a table without a stream ARN no role is built. *)
Lemma create_pipe_role_no_stream (env : StackEnv) (ddb_table : Table) (n : Node) :
  table_stream_arn ddb_table = None ->
  create_pipe_role env ddb_table n = (Raised TypeError, n).
Proof.
  intros Harn. unfold create_pipe_role, _create_source_policy, bind, lift.
  now rewrite Harn.
Qed.

(** The constructor returns, and its scope then holds exactly the table, the
    role and the three pipes. *)
Lemma init_runs (env : StackEnv) (src : string) :
  __init__ env src [] = (Returned tt, pipeline_children env src).
Proof.
  unfold __init__.
  erewrite (bind_returned (new_Table _ _ _ _ _)) with (a := pipeline_table)
    by reflexivity.
  erewrite (bind_returned (create_pipe_role _ _)) with (a := pipeline_role env)
    by reflexivity.
  assert (Hs : truthy (table_stream_arn pipeline_table) = true) by reflexivity.
  erewrite (bind_returned (create_pipe _ "UserDeleted" _ _ _ _ _));
    [| apply create_pipe_returns;
       [apply validate_passes; [exact Hs | simpl; auto] | reflexivity]].
  erewrite (bind_returned (create_pipe _ "UserCreated" _ _ _ _ _));
    [| apply create_pipe_returns;
       [apply validate_passes; [exact Hs | simpl; auto] | reflexivity]].
  erewrite (bind_returned (create_pipe _ "UserModified" _ _ _ _ _));
    [| apply create_pipe_returns;
       [apply validate_passes; [exact Hs | simpl; auto] | reflexivity]].
  reflexivity.
Qed.

Lemma built_children (env : StackEnv) (src : string) :
  built env src = pipeline_children env src.
Proof.
  unfold built. now rewrite init_runs.
Qed.

Lemma built_pipes (env : StackEnv) (src : string) :
  cfn_pipes (built env src)
  = [ pipeline_pipe env "UserDeleted" "REMOVE" key_template src;
      pipeline_pipe env "UserCreated" "INSERT" key_template src;
      pipeline_pipe env "UserModified" "MODIFY" images_template src ].
Proof.
  now rewrite built_children.
Qed.

(** The application stack builds the pipeline under the source name
    [myapp.users]. *)
Lemma application_stack_runs (env : StackEnv) :
  MyApplicationStack env = (Returned tt, pipeline_children env "myapp.users").
Proof.
  unfold MyApplicationStack. rewrite init_runs. reflexivity.
Qed.

Lemma validate_with_stream (ddb_table : Table) (event_name : string) :
  truthy (table_stream_arn ddb_table) = true ->
  _validate_pipe_parameters ddb_table event_name
  <> Raised (ValueError (streams_message ddb_table)).
Proof.
  intros Hs. unfold _validate_pipe_parameters. rewrite Hs. cbn [negb].
  destruct (negb (contains _ event_name)); [| discriminate].
  intros E. apply (messages_differ ddb_table event_name).
  unfold event_name_message. congruence.
Qed.

Lemma placeholders_key_template :
  Template.placeholders key_template = [key_placeholder].
Proof. reflexivity. Qed.

Lemma placeholders_images_template :
  Template.placeholders images_template
  = [key_placeholder; old_image_placeholder; new_image_placeholder].
Proof. reflexivity. Qed.

(** C5: of the three pipes, the one filtering MODIFY has the template that
    references the key, the old image and the new image; the ones filtering
    INSERT and REMOVE have the template [{"userId": <$.dynamodb.Keys.PK.S>}],
    which references the key and nothing else. *)
Theorem template_placeholders (env : StackEnv) (src : string) :
  map (fun p => (patterns p, Template.placeholders (template_of p)))
      (cfn_pipes (built env src))
  = [ ([pattern_text "REMOVE"], [key_placeholder]);
      ([pattern_text "INSERT"], [key_placeholder]);
      ([pattern_text "MODIFY"],
        [key_placeholder; old_image_placeholder; new_image_placeholder]) ]
  /\ map template_of (cfn_pipes (built env src))
     = [ "{" ++ quoted "userId" ++ ": <" ++ key_placeholder ++ ">}";
         "{" ++ quoted "userId" ++ ": <" ++ key_placeholder ++ ">}";
         "{" ++ quoted "userId" ++ ": <" ++ key_placeholder ++ ">, "
             ++ quoted "oldImage" ++ ": <" ++ old_image_placeholder ++ ">, "
             ++ quoted "newImage" ++ ": <" ++ new_image_placeholder ++ ">}" ]
  /\ Template.references key_template old_image_placeholder = false
  /\ Template.references key_template new_image_placeholder = false.
Proof.
  rewrite built_pipes. cbn [map].
  unfold pipeline_pipe, built_pipe, template_of, patterns; cbn [map pattern filters
    filter_criteria source_parameters target_parameters input_template
    _create_source_parameters _create_target_parameters].
  rewrite !dumps_filter_dict by reflexivity.
  rewrite placeholders_key_template, placeholders_images_template.
  repeat split.
Qed.

(** C6: the three pipes carry the detail types UserDeleted (for REMOVE),
    UserCreated (for INSERT) and UserModified (for MODIFY), no two alike, and
    each has the ARN of the one role of the scope as its role. *)
Theorem detail_types_and_shared_role (env : StackEnv) (src : string) :
  map (fun p => (patterns p, detail_type_of p)) (cfn_pipes (built env src))
  = [ ([pattern_text "REMOVE"], "UserDeleted");
      ([pattern_text "INSERT"], "UserCreated");
      ([pattern_text "MODIFY"], "UserModified") ]
  /\ NoDup (map detail_type_of (cfn_pipes (built env src)))
  /\ exists r,
      roles (built env src) = [r]
      /\ Forall (fun p => pipe_role_arn p = role_arn r)
                (cfn_pipes (built env src)).
Proof.
  rewrite built_pipes. split; [| split].
  - cbn [map]. unfold pipeline_pipe, built_pipe, detail_type_of, patterns;
      cbn [map pattern filters filter_criteria source_parameters
           target_parameters event_bridge_event_bus_parameters detail_type
           _create_source_parameters _create_target_parameters].
    now rewrite !dumps_filter_dict by reflexivity.
  - cbn [map]. unfold pipeline_pipe, built_pipe, detail_type_of;
      cbn [target_parameters event_bridge_event_bus_parameters detail_type
           _create_target_parameters].
    repeat constructor; simpl; intuition discriminate.
  - exists (pipeline_role env). split.
    + now rewrite built_children.
    + repeat constructor.
Qed.

(** C7: the one role of the scope has two inline policies.  The source policy
    allows DescribeStream, GetRecords, GetShardIterator and ListStreams on
    exactly the stream ARN of the table; the target policy allows
    events:PutEvents on exactly the ARN of the default bus.  Every pipe runs
    under that role, reads that stream and targets that bus. *)
Theorem policy_scopes (env : StackEnv) (src : string) :
  exists t r,
    tables (built env src) = [t]
    /\ roles (built env src) = [r]
    /\ inline_policies r
       = [ ("SourcePolicy",
             {| statements :=
                  [ {| actions :=
                         [ "dynamodb:DescribeStream";
                           "dynamodb:GetRecords";
                           "dynamodb:GetShardIterator";
                           "dynamodb:ListStreams" ];
                       effect := ALLOW;
                       resources := [table_stream_arn t] |} ] |});
           ("TargetPolicy",
             {| statements :=
                  [ {| actions := ["events:PutEvents"];
                       effect := ALLOW;
                       resources := [Some (default_bus_arn env)] |} ] |}) ]
    /\ truthy (table_stream_arn t) = true
    /\ Forall (fun p => pipe_role_arn p = role_arn r
                        /\ source p = table_stream_arn t
                        /\ target p = default_bus_arn env)
              (cfn_pipes (built env src)).
Proof.
  exists pipeline_table, (pipeline_role env).
  rewrite built_pipes, built_children.
  split; [reflexivity | split; [reflexivity | split; [reflexivity | split]]].
  - reflexivity.
  - repeat constructor.
Qed.

(** C8: the constructor builds three pipes, and each of them reads its stream
    in batches of one from the latest position; the table is declared with
    the view NEW_AND_OLD_IMAGES.  More generally every pipe that [create_pipe]
    returns, whatever its arguments and its scope, has these two settings and
    is a pipe of the scope afterwards. *)
Theorem stream_source_settings (env : StackEnv) (src : string) :
  map (fun p => (patterns p, stream_parameters p)) (cfn_pipes (built env src))
  = [ ([pattern_text "REMOVE"],
        {| starting_position := "LATEST"; batch_size := 1 |});
      ([pattern_text "INSERT"],
        {| starting_position := "LATEST"; batch_size := 1 |});
      ([pattern_text "MODIFY"],
        {| starting_position := "LATEST"; batch_size := 1 |}) ]
  /\ Forall (fun p => batch_size (stream_parameters p) = 1%Z
                      /\ starting_position (stream_parameters p) = "LATEST")
            (cfn_pipes (built env src))
  /\ map stream (tables (built env src)) = [Some NEW_AND_OLD_IMAGES]
  /\ (forall event_name,
        dynamo_db_stream_parameters (_create_source_parameters event_name)
        = {| starting_position := "LATEST"; batch_size := 1 |})
  /\ (forall (env' : StackEnv) (operation_type event_name tmpl : string)
             (ddb_table : Table) (role : Role) (src' : string) (n n' : Node)
             (p : CfnPipe),
        create_pipe env' operation_type event_name tmpl ddb_table role src' n
        = (Returned p, n') ->
        stream_parameters p
        = {| starting_position := "LATEST"; batch_size := 1 |}
        /\ In p (cfn_pipes n')).
Proof.
  rewrite built_pipes, built_children.
  split; [| split; [| split; [| split]]].
  - cbn [map]. unfold pipeline_pipe, built_pipe, stream_parameters, patterns;
      cbn [map pattern filters filter_criteria source_parameters
           dynamo_db_stream_parameters _create_source_parameters].
    now rewrite !dumps_filter_dict by reflexivity.
  - repeat constructor.
  - reflexivity.
  - intros event_name. reflexivity.
  - intros env' operation_type event_name tmpl ddb_table role src' n n' p Hrun.
    unfold create_pipe, bind at 1, lift in Hrun.
    destruct (_validate_pipe_parameters ddb_table event_name) as [[] | e];
      [| discriminate].
    unfold new_CfnPipe, bind, add_child, ret in Hrun.
    destruct (sanitize_id (operation_type ++ "Pipe")) as [| c sid];
      [discriminate |].
    destruct (has_child (String c sid) n); [discriminate |].
    injection Hrun as <- <-. split; [reflexivity |].
    unfold cfn_pipes. rewrite flat_map_app. apply in_or_app. right.
    simpl. now left.
Qed.

Lemma stream_source_settings_witness :
  create_pipe sample_env "UserCreated" "INSERT" key_template pipeline_table
              sample_role "myapp.users" []
  = (Returned (built_pipe sample_env "UserCreated" "INSERT" key_template
                          pipeline_table sample_role "myapp.users"),
     [("UserCreatedPipe",
        RPipe (built_pipe sample_env "UserCreated" "INSERT" key_template
                          pipeline_table sample_role "myapp.users"))])
  /\ stream_parameters
       (built_pipe sample_env "UserCreated" "INSERT" key_template
                   pipeline_table sample_role "myapp.users")
     = {| starting_position := "LATEST"; batch_size := 1 |}.
Proof.
  assert (H : create_pipe sample_env "UserCreated" "INSERT" key_template
                          pipeline_table sample_role "myapp.users" []
              = (Returned (built_pipe sample_env "UserCreated" "INSERT"
                                      key_template pipeline_table sample_role
                                      "myapp.users"),
                 [("UserCreatedPipe",
                    RPipe (built_pipe sample_env "UserCreated" "INSERT"
                                      key_template pipeline_table sample_role
                                      "myapp.users"))]))
    by reflexivity.
  split; [exact H |].
  exact (proj1 (proj2 (proj2 (proj2 (proj2
           (stream_source_settings sample_env "myapp.users"))))
           sample_env "UserCreated" "INSERT" key_template pipeline_table
           sample_role "myapp.users" [] _ _ H)).
Defined.

(** C10: the constructor returns.  Its table is declared with the view
    NEW_AND_OLD_IMAGES and so has a stream ARN; it is the table each of the
    three pipes was built on; and on it the validation never raises the
    missing-stream error, for any event name. *)
Theorem stream_check_unreachable (env : StackEnv) (src : string) :
  fst (__init__ env src []) = Returned tt
  /\ exists ddb n,
      new_Table env "DDBTable"
                {| attr_name := "PK"; attr_type := STRING |}
                (Some {| attr_name := "SK"; attr_type := STRING |})
                (Some NEW_AND_OLD_IMAGES) []
      = (Returned ddb, n)
      /\ tables (built env src) = [ddb]
      /\ stream ddb = Some NEW_AND_OLD_IMAGES
      /\ truthy (table_stream_arn ddb) = true
      /\ Forall (fun p => source p = table_stream_arn ddb)
                (cfn_pipes (built env src))
      /\ Forall (fun event_name =>
                   _validate_pipe_parameters ddb event_name = Returned tt)
                ["REMOVE"; "INSERT"; "MODIFY"]
      /\ forall event_name,
          _validate_pipe_parameters ddb event_name
          <> Raised (ValueError (streams_message ddb)).
Proof.
  split; [now rewrite init_runs |].
  assert (Hid : sanitize_id "DDBTable" <> EmptyString) by discriminate.
  destruct (new_Table_returns env "DDBTable"
              {| attr_name := "PK"; attr_type := STRING |}
              (Some {| attr_name := "SK"; attr_type := STRING |})
              (Some NEW_AND_OLD_IMAGES) [] Hid eq_refl) as [ddb Hnew].
  destruct (new_Table_stream _ _ _ _ _ _ _ _ Hnew) as [Hview Hs].
  assert (Hddb : ddb = pipeline_table).
  { unfold new_Table in Hnew.
    erewrite bind_returned in Hnew
      by (apply add_child_new; [exact Hid | reflexivity]).
    now injection Hnew as <- _. }
  exists ddb, ([] ++ [("DDBTable", RTable ddb)])%list.
  split; [exact Hnew |].
  split; [rewrite built_children, Hddb; reflexivity |].
  split; [exact Hview |].
  split; [exact Hs |].
  split; [rewrite built_pipes, Hddb; repeat constructor |].
  split.
  - repeat constructor; apply validate_passes; try exact Hs; simpl; auto.
  - intros event_name. now apply validate_with_stream.
Qed.

(** ** More on [create_pipe] *)

Lemma has_child_ids (id : string) (n : Node) :
  has_child id n = false <-> ~ In id (ids n).
Proof.
  unfold has_child, ids. induction n as [| [k r] n IH]; simpl.
  - tauto.
  - rewrite orb_false_iff, IH, String.eqb_neq. intuition congruence.
Qed.

Lemma has_child_app (id : string) (n m : Node) :
  has_child id (n ++ m)%list = has_child id n || has_child id m.
Proof.
  unfold has_child. apply existsb_app.
Qed.

Lemma ids_app (n m : Node) : ids (n ++ m)%list = (ids n ++ ids m)%list.
Proof.
  unfold ids. apply map_app.
Qed.

Lemma NoDup_snoc (l : list string) (x : string) :
  NoDup l -> ~ In x l -> NoDup (l ++ [x])%list.
Proof.
  intros Hl Hx. induction Hl as [| y l Hy Hl IH]; simpl.
  - constructor; [tauto | constructor].
  - constructor.
    + rewrite in_app_iff. simpl. intros [H | [H | []]].
      * contradiction.
      * subst. apply Hx. now left.
    + apply IH. intros H. apply Hx. now right.
Qed.

Lemma length_append (a b : string) :
  String.length (a ++ b) = String.length a + String.length b.
Proof.
  induction a as [| c a IH]; simpl; [reflexivity | now rewrite IH].
Qed.

(** A common suffix can be cancelled. *)
Lemma append_cancel_r (a b s : string) : a ++ s = b ++ s -> a = b.
Proof.
  revert b. induction a as [| c a IH]; intros [| d b] H; simpl in H.
  - reflexivity.
  - exfalso. apply (f_equal String.length) in H. simpl in H.
    rewrite length_append in H. lia.
  - exfalso. apply (f_equal String.length) in H. simpl in H.
    rewrite length_append in H. lia.
  - injection H as -> H. f_equal. now apply IH.
Qed.

(** A common prefix can be cancelled. *)
Lemma append_cancel_l (p a b : string) : p ++ a = p ++ b -> a = b.
Proof.
  induction p as [| c p IH]; simpl; intros H; [exact H |].
  injection H as H. now apply IH.
Qed.

(** A duplicate id is refused with the scope as it was. *)
Lemma create_pipe_duplicate (env : StackEnv) (operation_type event_name tmpl : string)
      (ddb_table : Table) (role : Role) (src : string) (n : Node) :
  _validate_pipe_parameters ddb_table event_name = Returned tt ->
  has_child (pipe_id_of operation_type) n = true ->
  create_pipe env operation_type event_name tmpl ddb_table role src n
  = (Raised (RuntimeError (duplicate_message env (pipe_id_of operation_type))),
     n).
Proof.
  intros Hv Hdup.
  unfold create_pipe, bind at 1, lift. rewrite Hv.
  unfold new_CfnPipe. fold (pipe_id_of operation_type).
  apply bind_raised. apply add_child_taken;
    [apply pipe_id_of_not_empty | exact Hdup].
Qed.

(** The three ways a call of [create_pipe] can go. *)
Lemma create_pipe_run (env : StackEnv) (operation_type event_name tmpl : string)
      (ddb_table : Table) (role : Role) (src : string) (n : Node) :
  create_pipe env operation_type event_name tmpl ddb_table role src n
  = match _validate_pipe_parameters ddb_table event_name with
    | Raised e => (Raised e, n)
    | Returned _ =>
        if has_child (pipe_id_of operation_type) n
        then (Raised (RuntimeError
                        (duplicate_message env (pipe_id_of operation_type))),
              n)
        else (Returned (built_pipe env operation_type event_name tmpl
                                   ddb_table role src),
              (n ++ [(pipe_id_of operation_type,
                      RPipe (built_pipe env operation_type event_name tmpl
                                        ddb_table role src))])%list)
    end.
Proof.
  destruct (_validate_pipe_parameters ddb_table event_name) as [[] | e] eqn:Hv.
  - destruct (has_child (pipe_id_of operation_type) n) eqn:Hc.
    + now apply create_pipe_duplicate.
    + now apply create_pipe_returns.
  - now apply create_pipe_raises.
Qed.

Lemma validate_cases (ddb_table : Table) (event_name : string) :
  (_validate_pipe_parameters ddb_table event_name = Returned tt
   /\ truthy (table_stream_arn ddb_table) = true
   /\ In event_name event_names)
  \/ (exists msg,
        _validate_pipe_parameters ddb_table event_name = Raised (ValueError msg)
        /\ (truthy (table_stream_arn ddb_table) = false
            \/ ~ In event_name event_names)).
Proof.
  destruct (truthy (table_stream_arn ddb_table)) eqn:Hs.
  - destruct (contains event_names event_name) eqn:Hc.
    + left. apply contains_In in Hc. split; [now apply validate_passes | auto].
    + right. apply contains_not_In in Hc. eexists. split;
        [now apply validate_bad_event_name | auto].
  - right. eexists. split; [now apply validate_no_stream | auto].
Qed.

Lemma has_child_true_ids (id : string) (n : Node) :
  has_child id n = true <-> In id (ids n).
Proof.
  destruct (has_child id n) eqn:Hc.
  - split; [| reflexivity]. intros _.
    destruct (in_dec string_dec id (ids n)) as [Hi | Hi]; [exact Hi |].
    apply has_child_ids in Hi. congruence.
  - split; [discriminate |]. intros Hi. apply has_child_ids in Hc.
    contradiction.
Qed.

(** X1: [create_pipe] either returns a pipe and adds exactly that pipe at the
    end of the scope, under the sanitised id (the operation type followed by
    Pipe, each slash written as two dashes), or raises and leaves the scope as
    it was; it returns exactly when the table has a stream, the event name is
    accepted and the sanitised id is not yet taken. *)
Theorem create_pipe_all_or_nothing
        (env : StackEnv) (operation_type event_name tmpl : string)
        (ddb_table : Table) (role : Role) (src : string) (n : Node) :
  (truthy (table_stream_arn ddb_table) = true
   /\ In event_name event_names
   /\ ~ In (sanitize_id (operation_type ++ "Pipe")) (ids n)
   /\ exists p,
       create_pipe env operation_type event_name tmpl ddb_table role src n
       = (Returned p,
          (n ++ [(sanitize_id (operation_type ++ "Pipe"), RPipe p)])%list)
       /\ pipe_id p = sanitize_id (operation_type ++ "Pipe"))
  \/ ((truthy (table_stream_arn ddb_table) = false
       \/ ~ In event_name event_names
       \/ In (sanitize_id (operation_type ++ "Pipe")) (ids n))
      /\ exists e,
          create_pipe env operation_type event_name tmpl ddb_table role src n
          = (Raised e, n)).
Proof.
  fold (pipe_id_of operation_type).
  destruct (validate_cases ddb_table event_name)
    as [[Hv [Hs Hin]] | [msg [Hv Hwhy]]].
  - destruct (has_child (pipe_id_of operation_type) n) eqn:Hc.
    + right. split.
      * right. right. now apply has_child_true_ids.
      * eexists. now apply create_pipe_duplicate.
    + left. repeat (split; [assumption || now apply has_child_ids |]).
      eexists. split; [now apply create_pipe_returns | reflexivity].
  - right. split; [tauto |]. eexists. apply create_pipe_raises. exact Hv.
Qed.

(** X2: when the sanitised id of the pipe is already taken in the scope,
    [create_pipe] raises and leaves the scope as it was: the error of the
    validation if the validation refuses the arguments, and otherwise the
    [RuntimeError] of the constructs library, whose message names the id and
    the scope. *)
Theorem create_pipe_taken_id
        (env : StackEnv) (operation_type event_name tmpl : string)
        (ddb_table : Table) (role : Role) (src : string) (n : Node) :
  In (sanitize_id (operation_type ++ "Pipe")) (ids n) ->
  create_pipe env operation_type event_name tmpl ddb_table role src n
  = (Raised match _validate_pipe_parameters ddb_table event_name with
            | Raised e => e
            | Returned _ =>
                RuntimeError
                  ("There is already a Construct with name '"
                     ++ sanitize_id (operation_type ++ "Pipe")
                     ++ "' in Construct"
                     ++ match construct_id env with
                        | EmptyString => EmptyString
                        | String _ _ => " [" ++ construct_id env ++ "]"
                        end)
            end,
     n).
Proof.
  intros Hin. apply has_child_true_ids in Hin. rewrite create_pipe_run.
  destruct (_validate_pipe_parameters ddb_table event_name) as [[] | e];
    [| reflexivity].
  unfold pipe_id_of. rewrite Hin. unfold duplicate_message, scope_name.
  reflexivity.
Qed.

Lemma create_pipe_taken_id_witness :
  In (sanitize_id ("User/Created" ++ "Pipe"))
     (ids [("User--CreatedPipe",
                    RPipe (pipeline_pipe sample_env "User--Created" "INSERT"
                                         key_template "myapp.users"))])
  /\ create_pipe sample_env "User/Created" "MODIFY" images_template
                 pipeline_table (pipeline_role sample_env) "myapp.users"
                 [("User--CreatedPipe",
                    RPipe (pipeline_pipe sample_env "User--Created" "INSERT"
                                         key_template "myapp.users"))]
     = (Raised (RuntimeError
                  "There is already a Construct with name 'User--CreatedPipe' in Construct [UserEvents]"),
        [("User--CreatedPipe",
                    RPipe (pipeline_pipe sample_env "User--Created" "INSERT"
                                         key_template "myapp.users"))]).
Proof.
  assert (H : In (sanitize_id ("User/Created" ++ "Pipe"))
                 (ids [("User--CreatedPipe",
                    RPipe (pipeline_pipe sample_env "User--Created" "INSERT"
                                         key_template "myapp.users"))]))
    by (simpl; auto).
  split; [exact H |].
  exact (create_pipe_taken_id sample_env "User/Created" "MODIFY" images_template
           pipeline_table (pipeline_role sample_env) "myapp.users"
           [("User--CreatedPipe",
                    RPipe (pipeline_pipe sample_env "User--Created" "INSERT"
                                         key_template "myapp.users"))] H).
Defined.

Lemma tables_app (n m : Node) : tables (n ++ m)%list = (tables n ++ tables m)%list.
Proof. unfold tables. apply flat_map_app. Qed.

Lemma roles_app (n m : Node) : roles (n ++ m)%list = (roles n ++ roles m)%list.
Proof. unfold roles. apply flat_map_app. Qed.

Lemma cfn_pipes_app (n m : Node) :
  cfn_pipes (n ++ m)%list = (cfn_pipes n ++ cfn_pipes m)%list.
Proof. unfold cfn_pipes. apply flat_map_app. Qed.

(** X3: whatever its arguments, [create_pipe] leaves the tables and the roles
    of the scope alone, adds the pipe it returns and no other, adds nothing
    when it raises, and keeps the construct ids of the scope distinct. *)
Theorem create_pipe_keeps_scope
        (env : StackEnv) (operation_type event_name tmpl : string)
        (ddb_table : Table) (role : Role) (src : string) (n : Node) :
  NoDup (ids n) ->
  let r := create_pipe env operation_type event_name tmpl ddb_table role src n in
  NoDup (ids (snd r))
  /\ tables (snd r) = tables n
  /\ roles (snd r) = roles n
  /\ cfn_pipes (snd r)
     = match fst r with
       | Returned p => (cfn_pipes n ++ [p])%list
       | Raised _ => cfn_pipes n
       end.
Proof.
  intros Hnodup r. subst r. rewrite create_pipe_run.
  destruct (_validate_pipe_parameters ddb_table event_name) as [[] | e];
    [destruct (has_child (pipe_id_of operation_type) n) eqn:Hc |];
    cbn [fst snd]; try (repeat split; exact Hnodup).
  rewrite ids_app, tables_app, roles_app, cfn_pipes_app. simpl.
  rewrite !app_nil_r. repeat split.
  apply NoDup_snoc; [exact Hnodup | now apply has_child_ids].
Qed.

Lemma create_pipe_keeps_scope_witness :
  NoDup (ids (pipeline_children sample_env "myapp.users"))
  /\ NoDup (ids (snd (create_pipe sample_env "UserRenamed" "MODIFY"
                                  images_template pipeline_table
                                  (pipeline_role sample_env) "myapp.users"
                                  (pipeline_children sample_env "myapp.users"))))
  /\ roles (snd (create_pipe sample_env "UserRenamed" "MODIFY"
                             images_template pipeline_table
                             (pipeline_role sample_env) "myapp.users"
                             (pipeline_children sample_env "myapp.users")))
     = roles (pipeline_children sample_env "myapp.users").
Proof.
  assert (H : NoDup (ids (pipeline_children sample_env "myapp.users"))).
  { simpl. repeat constructor; simpl; intuition discriminate. }
  destruct (create_pipe_keeps_scope sample_env "UserRenamed" "MODIFY"
              images_template pipeline_table (pipeline_role sample_env)
              "myapp.users" (pipeline_children sample_env "myapp.users") H)
    as [Hn [_ [Hr _]]].
  split; [exact H | split; [exact Hn | exact Hr]].
Defined.

(** X4: two calls of [create_pipe] in a row, both with arguments the
    validation accepts and sanitised ids not yet in the scope: when the two
    sanitised ids differ both pipes are added, in that order; when they are
    the same, as for one operation type used twice or for A/B after A--B, the
    second call raises the [RuntimeError] of the taken id and the scope keeps
    the first pipe only.  Two different operation types without a slash never
    have the same sanitised id. *)
Theorem create_pipe_twice
        (env : StackEnv) (op1 ev1 tmpl1 op2 ev2 tmpl2 : string)
        (ddb_table : Table) (role : Role) (src : string) (n : Node) :
  truthy (table_stream_arn ddb_table) = true ->
  In ev1 event_names ->
  In ev2 event_names ->
  ~ In (sanitize_id (op1 ++ "Pipe")) (ids n) ->
  ~ In (sanitize_id (op2 ++ "Pipe")) (ids n) ->
  let p1 := built_pipe env op1 ev1 tmpl1 ddb_table role src in
  let p2 := built_pipe env op2 ev2 tmpl2 ddb_table role src in
  (create_pipe env op1 ev1 tmpl1 ddb_table role src ;;;
   create_pipe env op2 ev2 tmpl2 ddb_table role src) n
  = (if String.eqb (sanitize_id (op1 ++ "Pipe")) (sanitize_id (op2 ++ "Pipe"))
     then (Raised (RuntimeError
                     ("There is already a Construct with name '"
                        ++ sanitize_id (op2 ++ "Pipe") ++ "' in "
                        ++ scope_name env)),
           (n ++ [(sanitize_id (op1 ++ "Pipe"), RPipe p1)])%list)
     else (Returned p2,
           (n ++ [(sanitize_id (op1 ++ "Pipe"), RPipe p1);
                  (sanitize_id (op2 ++ "Pipe"), RPipe p2)])%list))
  /\ (no_slash op1 = true -> no_slash op2 = true -> op1 <> op2 ->
      String.eqb (sanitize_id (op1 ++ "Pipe")) (sanitize_id (op2 ++ "Pipe"))
      = false).
Proof.
  intros Hs H1 H2 F1 F2 p1 p2. split.
  - fold (pipe_id_of op1) in *. fold (pipe_id_of op2) in *.
    apply has_child_ids in F1. apply has_child_ids in F2.
    pose proof (validate_passes ddb_table ev1 Hs H1) as V1.
    pose proof (validate_passes ddb_table ev2 Hs H2) as V2.
    erewrite bind_returned by (apply create_pipe_returns; eassumption).
    fold p1. rewrite create_pipe_run, V2, has_child_app, F2. simpl.
    rewrite orb_false_r, String.eqb_sym. fold p2.
    destruct (String.eqb (pipe_id_of op1) (pipe_id_of op2)).
    + reflexivity.
    + now rewrite <- app_assoc.
  - intros N1 N2 Hne. apply String.eqb_neq. intros Heq. apply Hne.
    rewrite !sanitize_id_app, (sanitize_id_no_slash op1 N1),
      (sanitize_id_no_slash op2 N2) in Heq.
    now apply (append_cancel_r _ _ (sanitize_id "Pipe")).
Qed.

Lemma create_pipe_twice_witness :
  truthy (table_stream_arn pipeline_table) = true
  /\ In "INSERT" event_names
  /\ In "MODIFY" event_names
  /\ ~ In (sanitize_id ("A/B" ++ "Pipe")) (ids [])
  /\ ~ In (sanitize_id ("A--B" ++ "Pipe")) (ids [])
  /\ (create_pipe sample_env "A/B" "INSERT" key_template
                  pipeline_table sample_role "myapp.users" ;;;
      create_pipe sample_env "A--B" "MODIFY" images_template
                  pipeline_table sample_role "myapp.users") []
     = (Raised (RuntimeError
                  "There is already a Construct with name 'A--BPipe' in Construct [UserEvents]"),
        [("A--BPipe",
           RPipe (built_pipe sample_env "A/B" "INSERT" key_template
                             pipeline_table sample_role "myapp.users"))]).
Proof.
  assert (H0 : truthy (table_stream_arn pipeline_table) = true) by reflexivity.
  assert (H1 : In "INSERT" event_names) by (simpl; auto).
  assert (H2 : In "MODIFY" event_names) by (simpl; auto).
  assert (H3 : ~ In (sanitize_id ("A/B" ++ "Pipe")) (ids [])) by (simpl; tauto).
  assert (H4 : ~ In (sanitize_id ("A--B" ++ "Pipe")) (ids [])) by (simpl; tauto).
  split; [exact H0 | split; [exact H1 | split; [exact H2 |
    split; [exact H3 | split; [exact H4 |]]]]].
  rewrite (proj1 (create_pipe_twice sample_env "A/B" "INSERT" key_template
                    "A--B" "MODIFY" images_template pipeline_table sample_role
                    "myapp.users" [] H0 H1 H2 H3 H4)).
  reflexivity.
Defined.

(** ** The serialised filter *)

Lemma unescape_escape_char (c : ascii) (r : string) :
  unescape_head (Json.escape_char c ++ r) = Some (c, r).
Proof.
  destruct c as [[] [] [] [] [] [] [] []]; reflexivity.
Qed.

Lemma unescape_quote (r : string) : unescape_head (dq ++ r) = None.
Proof. reflexivity. Qed.

(** An escaped string followed by its closing quote can be read in one way
    only. *)
Lemma escape_closed_inj (a b r1 r2 : string) :
  Json.escape a ++ dq ++ r1 = Json.escape b ++ dq ++ r2 -> a = b /\ r1 = r2.
Proof.
  revert b. induction a as [| c a IH]; intros [| d b] H; simpl in H.
  - split; [reflexivity |]. now injection H.
  - exfalso. apply (f_equal unescape_head) in H.
    rewrite append_assoc, unescape_escape_char in H.
    change (String (ascii_of_nat 34) r1) with (dq ++ r1) in H.
    rewrite unescape_quote in H. discriminate.
  - exfalso. apply (f_equal unescape_head) in H.
    rewrite append_assoc, unescape_escape_char in H.
    change (String (ascii_of_nat 34) r2) with (dq ++ r2) in H.
    rewrite unescape_quote in H. discriminate.
  - apply (f_equal unescape_head) in H.
    rewrite !append_assoc, !unescape_escape_char in H.
    injection H as -> H. destruct (IH b H) as [-> ->]. now split.
Qed.

(** The serialised filter is a fixed text around the escaped event name. *)
Lemma dumps_filter_dict_around (event_name key_prefix : string) :
  Json.dumps (filter_dict event_name key_prefix)
  = ("{" ++ quoted "eventName" ++ ": [" ++ dq)
      ++ Json.escape event_name ++ dq
      ++ ("], " ++ quoted "dynamodb" ++ ": {" ++ quoted "Keys" ++ ": {"
                ++ quoted "PK" ++ ": {" ++ quoted "S" ++ ": [{"
                ++ quoted "prefix" ++ ": " ++ Json.encode_string key_prefix
                ++ "}]}}}}").
Proof.
  unfold filter_dict. cbn [Json.dumps map join].
  unfold Json.encode_string, quoted.
  generalize (Json.escape event_name) (Json.escape key_prefix).
  intros e k. rewrite !append_assoc. reflexivity.
Qed.

Lemma printable_app (a b : string) :
  printable (a ++ b) = printable a && printable b.
Proof.
  induction a as [| c a IH]; simpl; [reflexivity |].
  now rewrite IH, andb_assoc.
Qed.

Lemma escape_char_printable (c : ascii) : printable (Json.escape_char c) = true.
Proof.
  destruct c as [[] [] [] [] [] [] [] []]; reflexivity.
Qed.

Lemma escape_printable (s : string) : printable (Json.escape s) = true.
Proof.
  induction s as [| c s IH]; simpl; [reflexivity |].
  now rewrite printable_app, escape_char_printable, IH.
Qed.

(** X5: two different event names made of code points 0 to 255 give
    different filter patterns, quotes, backslashes and control characters
    included.  Names with a code point of 256 or more are outside the model,
    and this is not stated of them. *)
Theorem filter_pattern_injective (a b : string) :
  a <> b ->
  filters (filter_criteria (_create_source_parameters a))
  <> filters (filter_criteria (_create_source_parameters b)).
Proof.
  intros Hne Heq. apply Hne.
  unfold _create_source_parameters in Heq. cbn [filter_criteria filters] in Heq.
  assert (Hone : forall x y : string,
             [ {| pattern := x |} ] = [ {| pattern := y |} ] -> x = y)
    by (intros x y H; now injection H).
  apply Hone in Heq.
  rewrite !dumps_filter_dict_around in Heq.
  apply append_cancel_l in Heq.
  now destruct (escape_closed_inj _ _ _ _ Heq).
Qed.

Lemma filter_pattern_injective_witness :
  "INSERT" <> "MODIFY"
  /\ filters (filter_criteria (_create_source_parameters "INSERT"))
     <> filters (filter_criteria (_create_source_parameters "MODIFY")).
Proof.
  assert (H : "INSERT" <> "MODIFY") by discriminate.
  split; [exact H | exact (filter_pattern_injective "INSERT" "MODIFY" H)].
Defined.

(** X6: for every event name made of code points 0 to 255 the filter
    pattern is printable ASCII: quotes, backslashes, control characters and
    the code points 127 to 255 of the name are written as escapes. *)
Theorem filter_pattern_printable (event_name : string) :
  Forall (fun f => printable (pattern f) = true)
         (filters (filter_criteria (_create_source_parameters event_name))).
Proof.
  unfold _create_source_parameters. cbn [filter_criteria filters].
  constructor; [| constructor]. cbn [pattern].
  rewrite dumps_filter_dict_around, !printable_app, escape_printable.
  reflexivity.
Qed.

(** X7: every pipe of the construct publishes under the event source name
    the constructor was given, and so under [myapp.users] in the application
    stack; the name reaches neither the filters nor the templates. *)
Theorem event_source_name_reaches_pipes (env : StackEnv) (src : string) :
  map source_name_of (cfn_pipes (built env src)) = [src; src; src]
  /\ map source_name_of (cfn_pipes (snd (MyApplicationStack env)))
     = ["myapp.users"; "myapp.users"; "myapp.users"]
  /\ map (fun p => (patterns p, template_of p)) (cfn_pipes (built env src))
     = map (fun p => (patterns p, template_of p))
           (cfn_pipes (built env EmptyString)).
Proof.
  rewrite application_stack_runs, !built_pipes. repeat split.
Qed.

(** ** The inventory of the construct *)

(** X8: for every stack and every event source name the constructor leaves
    exactly five constructs in its scope, under five different ids: the
    table, the role, and one pipe per detail type, each pipe under the id made
    of its detail type and the word Pipe. *)
Theorem construct_inventory (env : StackEnv) (src : string) :
  ids (built env src)
  = ["DDBTable"; "PipeIAMRole"; "UserDeletedPipe"; "UserCreatedPipe";
     "UserModifiedPipe"]
  /\ NoDup (ids (built env src))
  /\ length (tables (built env src)) = 1
  /\ length (roles (built env src)) = 1
  /\ length (cfn_pipes (built env src)) = 3
  /\ Forall (fun p => pipe_id p = detail_type_of p ++ "Pipe"
                      /\ In (pipe_id p) (ids (built env src)))
            (cfn_pipes (built env src)).
Proof.
  rewrite built_pipes, built_children.
  split; [reflexivity | split; [| split; [| split; [| split]]]];
    try reflexivity.
  - simpl. repeat constructor; simpl; intuition discriminate.
  - repeat (apply Forall_cons; [split; [reflexivity | simpl; auto 10] |]).
    apply Forall_nil.
Qed.
